(** * The review-generation service of [app.py]

    A shallow embedding of the framework store ([load_framework_files]),
    the component selection and prompt assembly of [generate_review], and
    the two HTTP handlers [get_file] and [create_review], followed by the
    properties of the specification that concern them.

    Python values are modelled as follows:
    - [str] as [string]; [s.endswith(t)] as [Str.endswith s t];
    - a [dict] as an association list in insertion order (the order in
      which [json.dumps] prints the entries), with [dict_set] for
      [d[k] = v], [dict_mem] for [k in d] and [dict_get] for [d[k]];
    - a raised exception as the [Raise] case of [outcome];
    - the file system, the process environment, the remote generation
      service and the parser and string encoder of the [json] module as
      the fields of a [World] record. *)

From Stdlib Require Import String Ascii List ZArith Bool Lia.
From Stdlib Require Import DecimalString.
From Stdlib Require Import Orders Mergesort Sorted Permutation.
Import ListNotations.

Local Open Scope list_scope.
Local Open Scope string_scope.

(** ** Strings *)

Module Str.

(** [s.endswith(suffix)]: some tail of [s] is [suffix]. *)
Fixpoint endswith (s suffix : string) : bool :=
  (s =? suffix) ||
  match s with
  | EmptyString => false
  | String _ s' => endswith s' suffix
  end.

(** [s.startswith(prefix)]. *)
Definition startswith (s prefix : string) : bool := String.prefix prefix s.

(** The line feed of the triple-quoted template. *)
Definition nl : string := String (ascii_of_nat 10) EmptyString.

(** [indent * n] for the two-space indent of [json.dumps(..., indent=2)]. *)
Fixpoint spaces (n : nat) : string :=
  match n with
  | O => ""
  | S k => "  " ++ spaces k
  end.

(** The parts occur in [s] one after the other, without overlap. *)
Inductive occur_in_order : list string -> string -> Prop :=
| occur_nil : forall s, occur_in_order [] s
| occur_cons : forall p ps before rest,
    occur_in_order ps rest ->
    occur_in_order (p :: ps) (before ++ p ++ rest).

End Str.

(** ** Exceptions *)

(** The exceptions the handlers meet: FastAPI's [HTTPException] and any
    other [Exception], kept with the text [str(e)] gives. *)
Inductive exn : Type :=
| Exception (message : string)
| HTTPException (status_code : Z) (detail : string).

Inductive outcome (A : Type) : Type :=
| Return (a : A)
| Raise (e : exn).

Arguments Return {A} a.
Arguments Raise {A} e.

(** ** Dictionaries *)

Module Dict.

Section WithValue.

Context {V : Type}.

Definition t : Type := list (string * V).

(** [d[k]], [None] when Python raises [KeyError]. *)
Fixpoint dict_get (d : t) (k : string) : option V :=
  match d with
  | [] => None
  | (k', v) :: rest => if k' =? k then Some v else dict_get rest k
  end.

(** [k in d]. *)
Definition dict_mem (d : t) (k : string) : bool :=
  match dict_get d k with
  | Some _ => true
  | None => false
  end.

(** [d[k] = v]: an existing key keeps its place, a new one goes last. *)
Fixpoint dict_set (d : t) (k : string) (v : V) : t :=
  match d with
  | [] => [(k, v)]
  | (k', v') :: rest =>
      if k' =? k then (k', v) :: rest else (k', v') :: dict_set rest k v
  end.

(** [list(d.keys())]. *)
Definition dict_keys (d : t) : list string := map fst d.

End WithValue.

Arguments t V : clear implicits.

End Dict.

Import Dict.

(** ** JSON documents *)

(** What [json.load] builds.  A float is kept as the text [json.dumps]
    prints for it. *)
#[warnings="-register-all"]
Inductive JSON : Type :=
| JNull
| JBool (b : bool)
| JInt (n : Z)
| JFloat (repr : string)
| JStr (s : string)
| JList (items : list JSON)
| JDict (entries : list (string * JSON)).

(** [json.dumps(o, indent=2)], at nesting depth [level].  An empty list or
    dict prints as its two brackets; otherwise every item starts a line of
    its own, indented by two spaces per level.  [encode_basestring] is the
    string encoder of the [json] module (quotes and escapes). *)
Fixpoint dumps_at (encode_basestring : string -> string) (level : nat)
    (o : JSON) : string :=
  match o with
  | JNull => "null"
  | JBool true => "true"
  | JBool false => "false"
  | JInt n => NilEmpty.string_of_int (Z.to_int n)
  | JFloat repr => repr
  | JStr s => encode_basestring s
  | JList items =>
      let newline_indent := Str.nl ++ Str.spaces (S level) in
      match items with
      | [] => "[]"
      | _ :: _ =>
          "[" ++ newline_indent
              ++ String.concat ("," ++ newline_indent)
                   (map (dumps_at encode_basestring (S level)) items)
              ++ Str.nl ++ Str.spaces level ++ "]"
      end
  | JDict entries =>
      let newline_indent := Str.nl ++ Str.spaces (S level) in
      match entries with
      | [] => "{}"
      | _ :: _ =>
          "{" ++ newline_indent
              ++ String.concat ("," ++ newline_indent)
                   (map (fun kv => encode_basestring (fst kv) ++ ": "
                                   ++ dumps_at encode_basestring (S level)
                                        (snd kv)) entries)
              ++ Str.nl ++ Str.spaces level ++ "}"
      end
  end.

Definition json_dumps (encode_basestring : string -> string) (o : JSON)
  : string := dumps_at encode_basestring 0 o.

(** ** The world outside the program *)

(** What a path of the file system holds. *)
Inductive node : Type :=
| Missing
| Unreadable (error : string)
| Regular (content : string).

(** What [client.messages.create] does when the [try] body of
    [generate_review] calls it: it returns the message of the service, with
    the texts of its content blocks, or it raises an [Exception] [e]
    (time-out, authentication, rate limit, malformed answer) with
    [str(e) = message].  The client re-sends a request as its own settings
    say before it returns or raises. *)
Inductive reply : Type :=
| Message (content : list string)
| Failure (message : string).

Record World : Type := {
  (** [os.environ.get("ANTHROPIC_API_KEY")] *)
  ANTHROPIC_API_KEY : option string;
  (** [import anthropic] and the construction of the client succeed *)
  client_ok : bool;
  (** [os.path.exists(FRAMEWORK_DIR)] *)
  framework_dir_exists : bool;
  (** [os.listdir(FRAMEWORK_DIR)] when the directory exists; the
      configured path is never anything but a directory that can be read *)
  listdir : list string;
  (** the file system below the working directory, by path *)
  lookup : string -> node;
  (** [client.messages.create] with the fixed model parameters, by prompt *)
  messages_create : string -> reply;
  (** [json.load] on the text of a file: the parsed document, or the
      exception the decoder raises *)
  json_load : string -> outcome JSON;
  (** the string encoder [json.dumps] uses for keys and strings *)
  encode_basestring : string -> string;
  (** [str(e)] of the [TypeError] that [await] raises on the message the
      synchronous client of line 60 returns *)
  await_error : string
}.

Definition FRAMEWORK_DIR : string := "NEW-SYSTEM".

(** [posixpath.join] of two components. *)
Definition os_path_join (a b : string) : string :=
  if Str.startswith b "/" then b
  else if (a =? "") || Str.endswith a "/" then a ++ b
  else a ++ "/" ++ b.

(** [os.path.exists] on a file path. *)
Definition os_path_exists (w : World) (path : string) : bool :=
  match lookup w path with
  | Missing => false
  | _ => true
  end.

(** [with open(file_path, 'r', encoding='utf-8') as f: json.load(f)] *)
Definition open_json (w : World) (file_path : string) : outcome JSON :=
  match lookup w file_path with
  | Regular content => json_load w content
  | Unreadable error => Raise (Exception error)
  | Missing =>
      Raise (Exception ("[Errno 2] No such file or directory: '"
                        ++ file_path ++ "'"))
  end.

(** Lines 54-68: the flag set at start-up. *)
Definition has_anthropic (w : World) : bool :=
  match ANTHROPIC_API_KEY w with
  | Some _ => client_ok w
  | None => false
  end.

(** ** The framework store (lines 82-99) *)

(** One turn of the loop over the directory listing. *)
Definition load_one (w : World) (framework_files : Dict.t JSON)
    (filename : string) : Dict.t JSON :=
  if Str.endswith filename ".json" then
    match open_json w (os_path_join FRAMEWORK_DIR filename) with
    | Return doc => dict_set framework_files filename doc
    | Raise _ => framework_files
    end
  else framework_files.

Definition load_framework_files (w : World) : Dict.t JSON :=
  if negb (framework_dir_exists w) then []
  else fold_left (load_one w) (listdir w) [].

(** ** The component selection of [generate_review] (lines 108-128) *)

Definition default_components : list string :=
  [ "framework-config.json"; "review-strategy.json";
    "content-structure.json" ].

(** [if not component.endswith(".json"): component += ".json"] *)
Definition with_suffix (component : string) : string :=
  if Str.endswith component ".json" then component
  else component ++ ".json".

(** [if component in framework_files:
       components[component] = framework_files[component]] *)
Definition include (framework_files components : Dict.t JSON)
    (component : string) : Dict.t JSON :=
  match dict_get framework_files component with
  | Some doc => dict_set components component doc
  | None => components
  end.

Definition select_components (framework_files : Dict.t JSON)
    (include_components : list string) : Dict.t JSON :=
  match include_components with
  | [] => fold_left (include framework_files) default_components []
  | _ :: _ =>
      fold_left
        (fun components component =>
           include framework_files components (with_suffix component))
        include_components []
  end.

(** ** Requests and the prompt (lines 71-79 and 130-148) *)

Record ReviewRequest : Type := {
  product_name : string;
  product_category : string;
  user_experience : string;
  include_components : list string
}.

Record ReviewResponse : Type := {
  review : string;
  components_used : list string
}.

(** The f-string of [generate_review], one entry per source line. *)
Definition build_prompt (w : World) (request : ReviewRequest)
    (components : Dict.t JSON) : string :=
  String.concat Str.nl
    [ "";
      "    You are a professional product reviewer using the Amazon Review Framework.";
      "    ";
      "    Product: " ++ product_name request;
      "    Category: " ++ product_category request;
      "    ";
      "    User's experience with the product:";
      "    " ++ user_experience request;
      "    ";
      "    Using the Amazon Review Framework components below, generate a comprehensive, ";
      "    well-structured review for this product. Follow the framework guidelines for structure,";
      "    content balance, and authenticity.";
      "    ";
      "    Framework components to use:";
      "    " ++ json_dumps (encode_basestring w) (JDict components);
      "    ";
      "    Generate a complete review following these framework guidelines.";
      "    " ].

(** ** Handlers with their network traffic *)

(** A computation returns or raises, and leaves the list of the prompts it
    handed to [client.messages.create], one entry per call of that
    method. *)
Definition Eff (A : Type) : Type := (outcome A * list string)%type.

Definition ret {A : Type} (a : A) : Eff A := (Return a, []).

Definition bind {A B : Type} (m : Eff A) (k : A -> Eff B) : Eff B :=
  match m with
  | (Return a, sent) => let (r, sent') := k a in (r, (sent ++ sent')%list)
  | (Raise e, sent) => (Raise e, sent)
  end.

Notation "x <- m ;; k" := (bind m (fun x => k))
  (at level 61, m at next level, right associativity).

(** The call of [client.messages.create] at line 151: one call of the
    method, whatever the client does on the network to answer it. *)
Definition call_service (w : World) (prompt : string) : Eff reply :=
  (Return (messages_create w prompt), [prompt]).

Definition disabled_message : string :=
  "Anthropic API key not set. Please configure the ANTHROPIC_API_KEY environment variable to use review generation.".

(** The prompt [generate_review] assembles for a request. *)
Definition prompt_of (w : World) (request : ReviewRequest) : string :=
  let framework_files := load_framework_files w in
  let components :=
    select_components framework_files (include_components request) in
  build_prompt w request components.

(** Lines 102-163.  The client of line 60 is the synchronous one.  When
    its call raises, [except Exception] turns the exception into the
    returned text.  When its call returns a message, the [await] of line
    151 raises a [TypeError] on that message, still inside the [try], so
    the [return] of line 160 is never reached and the returned text is
    again an error sentence. *)
Definition generate_review (w : World) (request : ReviewRequest)
  : Eff string :=
  if negb (has_anthropic w) then ret disabled_message
  else
    let prompt := prompt_of w request in
    answer <- call_service w prompt ;;
    match answer with
    | Message _ => ret ("Error generating review: " ++ await_error w)
    | Failure message => ret ("Error generating review: " ++ message)
    end.

(** Lines 296-312. *)
Definition create_review (w : World) (request : ReviewRequest)
  : Eff ReviewResponse :=
  review <- generate_review w request ;;
  let components_used :=
    match include_components request with
    | [] => [ "framework-config.json"; "review-strategy.json";
              "content-structure.json" ]
    | _ :: _ =>
        map (fun c => if Str.endswith c ".json" then c else c ++ ".json")
            (include_components request)
    end in
  ret {| review := review; components_used := components_used |}.

(** Lines 258-279. *)
Definition get_file (w : World) (filename : string) : outcome JSON :=
  let filename := with_suffix filename in
  let framework_files := load_framework_files w in
  match dict_get framework_files filename with
  | Some doc => Return doc
  | None =>
      let file_path := os_path_join FRAMEWORK_DIR filename in
      let not_found :=
        Raise (HTTPException 404
                 ("File " ++ filename ++ " not found in " ++ FRAMEWORK_DIR)) in
      if os_path_exists w file_path then
        match open_json w file_path with
        | Return doc => Return doc
        | Raise _ => not_found
        end
      else not_found
  end.

(** ** The HTTP layer *)

(** Whether the JSON response can render a document: it refuses the floats
    that are not numbers of JSON (a [ValueError], out of range float).
    Strings are UTF-8 text and always encode. *)
Fixpoint json_compliant (o : JSON) : bool :=
  match o with
  | JFloat repr =>
      negb ((repr =? "NaN") || (repr =? "Infinity") || (repr =? "-Infinity"))
  | JList items => forallb json_compliant items
  | JDict entries => forallb (fun kv => json_compliant (snd kv)) entries
  | _ => true
  end.

Inductive body : Type :=
| JsonBody (doc : JSON)
| ReviewBody (r : ReviewResponse)
| DetailBody (detail : string)
| InternalServerError.

Record Response : Type := {
  status : Z;
  content : body
}.

(** FastAPI's answer for a handler: 200 with the returned value, unless
    the value is a document the JSON response cannot render, which is an
    exception after the handler and so a 500; the status and detail of an
    [HTTPException]; 500 for any other exception. *)
Definition respond {A : Type} (encode : A -> body) (o : outcome A)
  : Response :=
  match o with
  | Return a =>
      match encode a with
      | JsonBody doc =>
          if json_compliant doc
          then {| status := 200; content := JsonBody doc |}
          else {| status := 500; content := InternalServerError |}
      | answer => {| status := 200; content := answer |}
      end
  | Raise (HTTPException status_code detail) =>
      {| status := status_code; content := DetailBody detail |}
  | Raise (Exception _) => {| status := 500; content := InternalServerError |}
  end.

(** [GET /files/{filename}] and [POST /generate-review]. *)
Definition get_files_filename (w : World) (filename : string) : Response :=
  respond JsonBody (get_file w filename).

Definition post_generate_review (w : World) (request : ReviewRequest)
  : Response :=
  respond ReviewBody (fst (create_review w request)).

(** ** Sample worlds *)

Module Sample.

(** A decoder for the few documents the sample files hold. *)
Definition load_literal (text : string) : outcome JSON :=
  if text =? "{}" then Return (JDict [])
  else if text =? "null" then Return JNull
  else if text =? "[1, 2]" then Return (JList [JInt 1; JInt 2])
  else Raise (Exception "Expecting value: line 1 column 1 (char 0)").

(** The encoder on strings that need no escape. *)
Definition quote (s : string) : string :=
  String (ascii_of_nat 34) s ++ String (ascii_of_nat 34) "".

(** A directory with two well-formed documents, a malformed one, a
    sub-directory whose name ends in [.json] and a text file. *)
Definition tree (path : string) : node :=
  if path =? "NEW-SYSTEM/framework-config.json" then Regular "{}"
  else if path =? "NEW-SYSTEM/review-strategy.json" then Regular "[1, 2]"
  else if path =? "NEW-SYSTEM/broken.json" then Regular "{oops"
  else if path =? "NEW-SYSTEM/nested.json" then
    Unreadable "[Errno 21] Is a directory: 'NEW-SYSTEM/nested.json'"
  else if path =? "NEW-SYSTEM/notes.txt" then Regular "null"
  else Missing.

Definition listing : list string :=
  [ "broken.json"; "framework-config.json"; "nested.json"; "notes.txt";
    "review-strategy.json" ].

(** The service answers every prompt with a rate-limit error. *)
Definition enabled : World :=
  {| ANTHROPIC_API_KEY := Some "sk-ant-test";
     client_ok := true;
     framework_dir_exists := true;
     listdir := listing;
     lookup := tree;
     messages_create := fun _ => Failure "rate limit exceeded";
     json_load := load_literal;
     encode_basestring := quote;
     await_error := "object Message can't be used in 'await' expression" |}.

(** The same directory without a credential. *)
Definition disabled : World :=
  {| ANTHROPIC_API_KEY := None;
     client_ok := false;
     framework_dir_exists := true;
     listdir := listing;
     lookup := tree;
     messages_create := fun _ => Message ["A fine product."];
     json_load := load_literal;
     encode_basestring := quote;
     await_error := "object Message can't be used in 'await' expression" |}.

(** No framework directory at all. *)
Definition bare : World :=
  {| ANTHROPIC_API_KEY := Some "sk-ant-test";
     client_ok := true;
     framework_dir_exists := false;
     listdir := [];
     lookup := fun _ => Missing;
     messages_create := fun _ => Message ["A fine product."];
     json_load := load_literal;
     encode_basestring := quote;
     await_error := "object Message can't be used in 'await' expression" |}.

Definition widget (requested : list string) : ReviewRequest :=
  {| product_name := "Widget";
     product_category := "Tools";
     user_experience := "Works great";
     include_components := requested |}.

End Sample.

(** ** The other handlers and the form interface *)

(** [str(e)]: the message of an exception; Starlette prints an
    [HTTPException] as its status and detail. *)
Definition str_exn (e : exn) : string :=
  match e with
  | Exception message => message
  | HTTPException status_code detail =>
      NilEmpty.string_of_int (Z.to_int status_code) ++ ": " ++ detail
  end.

(** [str(b)] for a [bool], as an f-string prints it. *)
Definition str_bool (b : bool) : string := if b then "True" else "False".

(** The working directory as the handlers read it, and [repr] on a string
    (quotes and escapes), left abstract. *)
Record Host : Type := {
  (** [os.listdir(path)], or the [OSError] it raises *)
  os_listdir : string -> outcome (list string);
  (** [os.path.isdir(path)] *)
  os_path_isdir : string -> bool;
  (** [repr(s)] for a string *)
  repr_str : string -> string
}.

(** [repr] of a list of strings. *)
Definition repr_list (h : Host) (items : list string) : string :=
  "[" ++ String.concat ", " (map (repr_str h) items) ++ "]".

(** [[d for d in os.listdir('.') if os.path.isdir(d)]] *)
Definition root_directories (h : Host) : outcome (list string) :=
  match os_listdir h "." with
  | Return items => Return (filter (os_path_isdir h) items)
  | Raise e => Raise e
  end.

(** The dictionary [list_files] returns. *)
Record FileList : Type := {
  files : list string;
  count : nat;
  directory : string;
  directory_exists : bool;
  root_dirs : list string
}.

(** Lines 244-256. *)
Definition list_files (w : World) (h : Host) : outcome FileList :=
  let framework_files := load_framework_files w in
  match root_directories h with
  | Return dirs =>
      Return {| files := dict_keys framework_files;
                count := length framework_files;
                directory := FRAMEWORK_DIR;
                directory_exists := framework_dir_exists w;
                root_dirs := dirs |}
  | Raise e => Raise e
  end.

(** Lines 281-294.  The working directory is listed only to build the
    detail of the 404. *)
Definition get_framework (w : World) (h : Host) : outcome (Dict.t JSON) :=
  let framework_files := load_framework_files w in
  match framework_files with
  | [] =>
      match root_directories h with
      | Return dirs =>
          Raise (HTTPException 404
                   ("No framework files found in " ++ FRAMEWORK_DIR
                    ++ ". Directory exists: "
                    ++ str_bool (framework_dir_exists w)
                    ++ ". Root directories: " ++ repr_list h dirs))
      | Raise e => Raise e
      end
  | _ :: _ => Return framework_files
  end.

(** The JSON FastAPI sends for the dictionary of [list_files]. *)
Definition file_list_json (l : FileList) : JSON :=
  JDict [ ("files", JList (map JStr (files l)));
          ("count", JInt (Z.of_nat (count l)));
          ("directory", JStr (directory l));
          ("directory_exists", JBool (directory_exists l));
          ("root_directories", JList (map JStr (root_dirs l))) ].

(** [GET /files] and [GET /framework]. *)
Definition get_files (w : World) (h : Host) : Response :=
  respond (fun l => JsonBody (file_list_json l)) (list_files w h).

Definition get_framework_response (w : World) (h : Host) : Response :=
  respond (fun d => JsonBody (JDict d)) (get_framework w h).


(** Lines 326-327: the choices of the component check boxes. *)
Definition component_choices (w : World) : list string :=
  dict_keys (load_framework_files w).

(** Lines 425-427: the choices of the file viewer. *)
Definition json_files (w : World) : list string :=
  if framework_dir_exists w then
    filter (fun f => Str.endswith f ".json") (listdir w)
  else [].

(** Lines 410-423: the file viewer. *)
Definition get_framework_file (w : World) (filename : string) : string :=
  let filename := with_suffix filename in
  let file_path := os_path_join FRAMEWORK_DIR filename in
  if os_path_exists w file_path then
    match open_json w file_path with
    | Return data => json_dumps (encode_basestring w) data
    | Raise e => "Error loading " ++ filename ++ ": " ++ str_exn e
    end
  else "File " ++ filename ++ " not found in " ++ FRAMEWORK_DIR.

(** [sorted] on strings: Python orders them by code point, which is the
    byte order of their UTF-8 text. *)
Module StringOrder <: Orders.TotalLeBool.
Definition t : Type := string.
Definition leb : string -> string -> bool := String.leb.
Definition leb_total :
  forall a b : string, leb a b = true \/ leb b a = true := String.leb_total.
End StringOrder.

Module StringSort := Mergesort.Sort StringOrder.

Definition sorted (l : list string) : list string := StringSort.sort l.

(** The two icons of the explorer, U+1F4C1 and U+1F4C4, each followed by a
    space. *)
Definition folder_icon : string :=
  string_of_list_ascii
    (map ascii_of_nat [240; 159; 147; 129; 32])%list.

Definition page_icon : string :=
  string_of_list_ascii
    (map ascii_of_nat [240; 159; 147; 132; 32])%list.

(** One turn of the loop of [list_directory] over the items. *)
Definition classify (h : Host) (path : string)
    (acc : list string * list string) (item : string)
  : list string * list string :=
  let (dirs, files) := acc in
  let full_path := os_path_join path item in
  if os_path_isdir h full_path then
    (List.app dirs [folder_icon ++ item ++ "/"], files)
  else if Str.endswith item ".json" then
    (dirs, List.app files [page_icon ++ item ++ " [JSON]"])
  else (dirs, List.app files [page_icon ++ item]).

(** Lines 381-398: the explorer. *)
Definition list_directory (h : Host) (path : string) : string :=
  match os_listdir h path with
  | Return items =>
      let (dirs, files) := fold_left (classify h path) items ([], []) in
      String.concat Str.nl (List.app (sorted dirs) (sorted files))
  | Raise e => "Error listing directory " ++ path ++ ": " ++ str_exn e
  end.

(** ** A sample working directory *)

Module Desk.

Definition host : Host :=
  {| os_listdir := fun path =>
       if path =? "." then
         Return [ "static"; "app.py"; "NEW-SYSTEM"; "notes.json"; "README.md" ]
       else if path =? "NEW-SYSTEM" then Return Sample.listing
       else Raise (Exception ("[Errno 2] No such file or directory: '"
                              ++ path ++ "'"));
     os_path_isdir := fun path =>
       (path =? "static") || (path =? "NEW-SYSTEM")
       || (path =? "./static") || (path =? "./NEW-SYSTEM")
       || (path =? "NEW-SYSTEM/nested.json");
     repr_str := fun s => "'" ++ s ++ "'" |}.

(** Generation enabled, the service answering with a review. *)
Definition answering : World :=
  {| ANTHROPIC_API_KEY := Some "sk-ant-test";
     client_ok := true;
     framework_dir_exists := true;
     listdir := Sample.listing;
     lookup := Sample.tree;
     messages_create := fun _ => Message ["A fine product."; "(more)"];
     json_load := Sample.load_literal;
     encode_basestring := Sample.quote;
     await_error := "object Message can't be used in 'await' expression" |}.





End Desk.

(** * Properties *)

(** ** Strings *)

Module StrFacts.

Import Str.

Lemma append_assoc (a b c : string) : (a ++ b) ++ c = a ++ b ++ c.
Proof.
  induction a as [| ch a IH]; simpl; [reflexivity | now rewrite IH].
Qed.

Lemma endswith_unfold (s suffix : string) :
  endswith s suffix =
  (s =? suffix) ||
  match s with
  | EmptyString => false
  | String _ s' => endswith s' suffix
  end.
Proof. destruct s; reflexivity. Qed.

Lemma endswith_refl (s : string) : endswith s s = true.
Proof. rewrite endswith_unfold, String.eqb_refl. reflexivity. Qed.

Lemma endswith_append (p s : string) : endswith (p ++ s) s = true.
Proof.
  induction p as [| ch p IH].
  - apply endswith_refl.
  - change (String ch p ++ s) with (String ch (p ++ s)).
    rewrite endswith_unfold, IH. apply orb_true_r.
Qed.

(** [endswith] is Python's test: [s] is some text followed by [suffix]. *)
Lemma endswith_iff (s suffix : string) :
  endswith s suffix = true <-> exists p, s = p ++ suffix.
Proof.
  split.
  - induction s as [| ch s IH]; rewrite endswith_unfold; intros H.
    + rewrite orb_false_r in H. apply String.eqb_eq in H.
      exists "". now subst.
    + apply orb_true_iff in H as [H | H].
      * apply String.eqb_eq in H. exists "". now rewrite <- H.
      * destruct (IH H) as [p Hp]. exists (String ch p). simpl. now rewrite Hp.
  - intros [p ->]. apply endswith_append.
Qed.

Lemma occur_after (x : string) (parts : list string) (s : string) :
  occur_in_order parts s -> occur_in_order parts (x ++ s).
Proof.
  intros H. destruct H as [s | p ps before rest H].
  - apply occur_nil.
  - rewrite <- append_assoc. now apply occur_cons.
Qed.

(** Dropping the first part keeps the others in order. *)
Lemma occur_tail (p : string) (parts : list string) (s : string) :
  occur_in_order (p :: parts) s -> occur_in_order parts s.
Proof.
  intros H. inversion H as [| p' ps before rest Hrest]; subst.
  now apply occur_after, occur_after.
Qed.

End StrFacts.

(** ** Dictionaries *)

Module DictFacts.

Section WithValue.

Context {V : Type}.

Implicit Types (d : Dict.t V) (k : string) (v : V).

Lemma dict_get_set d k v k' :
  dict_get (dict_set d k v) k' = if k =? k' then Some v else dict_get d k'.
Proof.
  induction d as [| [k0 v0] d IH]; simpl.
  - reflexivity.
  - destruct (String.eqb_spec k0 k) as [-> | Hk]; simpl.
    + destruct (k =? k'); reflexivity.
    + rewrite IH.
      destruct (String.eqb_spec k0 k') as [-> | Hk']; [| reflexivity].
      destruct (String.eqb_spec k k'); [congruence | reflexivity].
Qed.

Lemma in_keys_dict_get d k :
  In k (dict_keys d) -> exists v, dict_get d k = Some v.
Proof.
  induction d as [| [k0 v0] d IH]; simpl; [tauto |].
  intros [-> | Hin].
  - rewrite String.eqb_refl. now exists v0.
  - destruct (k0 =? k); [now exists v0 | auto].
Qed.

Lemma dict_keys_set d k v k' :
  In k' (dict_keys (dict_set d k v)) <-> k' = k \/ In k' (dict_keys d).
Proof.
  induction d as [| [k0 v0] d IH]; simpl.
  - intuition.
  - destruct (String.eqb_spec k0 k) as [-> | Hk]; simpl.
    + intuition.
    + rewrite IH. intuition.
Qed.

(** An assignment never duplicates a key. *)
Lemma dict_set_NoDup d k v :
  NoDup (dict_keys d) -> NoDup (dict_keys (dict_set d k v)).
Proof.
  induction d as [| [k0 v0] d IH]; simpl; intros Hnd.
  - constructor; [intros [] | constructor].
  - inversion Hnd as [| ? ? Hnotin Hnd']; subst.
    destruct (String.eqb_spec k0 k) as [-> | Hk]; simpl.
    + now constructor.
    + constructor; [| auto].
      fold (dict_keys (dict_set d k v)). rewrite dict_keys_set.
      intros [Heq | Hin]; [congruence | contradiction].
Qed.

End WithValue.

End DictFacts.

(** ** The framework store *)

Module StoreFacts.

Import DictFacts.

Lemma load_one_get w acc filename k :
  dict_get (load_one w acc filename) k =
  if (filename =? k) && Str.endswith filename ".json" then
    match open_json w (os_path_join FRAMEWORK_DIR filename) with
    | Return doc => Some doc
    | Raise _ => dict_get acc k
    end
  else dict_get acc k.
Proof.
  unfold load_one.
  destruct (Str.endswith filename ".json");
    [| now rewrite andb_false_r].
  rewrite andb_true_r.
  destruct (open_json w (os_path_join FRAMEWORK_DIR filename)) as [doc | e].
  - apply dict_get_set.
  - now destruct (filename =? k).
Qed.

Lemma load_one_NoDup w acc filename :
  NoDup (dict_keys acc) -> NoDup (dict_keys (load_one w acc filename)).
Proof.
  intros Hnd. unfold load_one.
  destruct (Str.endswith filename ".json"); [| assumption].
  destruct (open_json w (os_path_join FRAMEWORK_DIR filename));
    [now apply dict_set_NoDup | assumption].
Qed.

(** The loop over the listing, from any dictionary built so far. *)
Lemma load_loop_get w names : forall acc k,
  dict_get (fold_left (load_one w) names acc) k =
  if existsb (String.eqb k) names && Str.endswith k ".json" then
    match open_json w (os_path_join FRAMEWORK_DIR k) with
    | Return doc => Some doc
    | Raise _ => dict_get acc k
    end
  else dict_get acc k.
Proof.
  induction names as [| filename names IH]; intros acc k; simpl.
  - reflexivity.
  - rewrite IH, load_one_get, (String.eqb_sym k filename).
    destruct (String.eqb_spec filename k) as [-> | Hne]; simpl.
    + destruct (Str.endswith k ".json"); rewrite ?andb_false_r; simpl;
        [| reflexivity].
      destruct (existsb (String.eqb k) names); simpl;
        now destruct (open_json w (os_path_join FRAMEWORK_DIR k)).
    + reflexivity.
Qed.

Lemma load_loop_NoDup w names : forall acc,
  NoDup (dict_keys acc) ->
  NoDup (dict_keys (fold_left (load_one w) names acc)).
Proof.
  induction names as [| filename names IH]; intros acc Hnd; simpl.
  - assumption.
  - now apply IH, load_one_NoDup.
Qed.

Lemma existsb_eqb_In (k : string) (names : list string) :
  existsb (String.eqb k) names = true <-> In k names.
Proof.
  rewrite existsb_exists. split.
  - intros [x [Hin Heq]]. apply String.eqb_eq in Heq. now subst.
  - intros Hin. exists k. split; [assumption | apply String.eqb_refl].
Qed.

(** Every entry of the store is the parsed file of that name. *)
Lemma store_entry_parses w filename doc :
  dict_get (load_framework_files w) filename = Some doc ->
  open_json w (os_path_join FRAMEWORK_DIR filename) = Return doc.
Proof.
  unfold load_framework_files.
  destruct (framework_dir_exists w); [| discriminate].
  simpl. rewrite load_loop_get.
  destruct (existsb (String.eqb filename) (listdir w)
            && Str.endswith filename ".json");
    [| discriminate].
  destruct (open_json w (os_path_join FRAMEWORK_DIR filename));
    [congruence | discriminate].
Qed.

End StoreFacts.

(** C4.  [load_framework_files] is total.  Without the directory it gives
    the empty dictionary.  With the directory, the dictionary has no key
    twice, and it maps a name to a document exactly when the name is in
    the listing, ends in [.json], and the file of that name opens and
    parses to that document: a file that fails is left out and changes
    nothing for the others. *)
Theorem load_framework_files_entries (w : World) :
  (framework_dir_exists w = false -> load_framework_files w = []) /\
  (framework_dir_exists w = true ->
     NoDup (dict_keys (load_framework_files w)) /\
     forall filename doc,
       dict_get (load_framework_files w) filename = Some doc <->
       In filename (listdir w) /\
       Str.endswith filename ".json" = true /\
       open_json w (os_path_join FRAMEWORK_DIR filename) = Return doc).
Proof.
  unfold load_framework_files. split.
  - intros ->. reflexivity.
  - intros ->. simpl. split.
    + apply StoreFacts.load_loop_NoDup. constructor.
    + intros filename doc. rewrite StoreFacts.load_loop_get.
      rewrite <- StoreFacts.existsb_eqb_In.
      destruct (existsb (String.eqb filename) (listdir w));
        destruct (Str.endswith filename ".json"); simpl;
        try (split; [discriminate | intros (? & ? & ?); discriminate]).
      destruct (open_json w (os_path_join FRAMEWORK_DIR filename)) as [d | e];
        split.
      * intros [= ->]. auto.
      * intros (_ & _ & [= ->]). reflexivity.
      * discriminate.
      * intros (_ & _ & ?). discriminate.
Qed.

Lemma load_framework_files_entries_witness :
  load_framework_files Sample.bare = [] /\
  dict_get (load_framework_files Sample.enabled) "review-strategy.json"
  = Some (JList [JInt 1; JInt 2]) /\
  dict_get (load_framework_files Sample.enabled) "broken.json" = None.
Proof.
  split; [| split].
  - apply (proj1 (load_framework_files_entries Sample.bare)). reflexivity.
  - apply (proj2 (load_framework_files_entries Sample.enabled) eq_refl).
    repeat split. simpl. tauto.
  - destruct (dict_get (load_framework_files Sample.enabled) "broken.json")
      as [doc |] eqn:Hget; [| reflexivity].
    apply (proj2 (load_framework_files_entries Sample.enabled) eq_refl)
      in Hget.
    destruct Hget as (_ & _ & Hopen). discriminate Hopen.
Defined.

(** ** The component selection *)

Module SelectFacts.

Import DictFacts.

Lemma include_get store acc component k :
  dict_get (include store acc component) k =
  if component =? k then
    match dict_get store k with
    | Some doc => Some doc
    | None => dict_get acc k
    end
  else dict_get acc k.
Proof.
  unfold include.
  destruct (String.eqb_spec component k) as [-> | Hne].
  - destruct (dict_get store k) as [doc |]; [| reflexivity].
    now rewrite dict_get_set, String.eqb_refl.
  - destruct (dict_get store component) as [doc |]; [| reflexivity].
    rewrite dict_get_set. now destruct (String.eqb_spec component k).
Qed.

(** The loop over the requested names is the loop over their suffixed
    forms. *)
Lemma requested_loop_map (store : Dict.t JSON) (requested : list string) :
  forall acc,
  fold_left (fun components component =>
               include store components (with_suffix component))
            requested acc
  = fold_left (include store) (map with_suffix requested) acc.
Proof.
  induction requested as [| c requested IH]; intros acc; simpl;
    [reflexivity | apply IH].
Qed.

Lemma include_loop_get (store : Dict.t JSON) (names : list string) :
  forall acc k,
  dict_get (fold_left (include store) names acc) k =
  if existsb (String.eqb k) names then
    match dict_get store k with
    | Some doc => Some doc
    | None => dict_get acc k
    end
  else dict_get acc k.
Proof.
  induction names as [| c names IH]; intros acc k; simpl.
  - reflexivity.
  - rewrite IH, include_get, (String.eqb_sym k c).
    destruct (c =? k); simpl;
      destruct (existsb (String.eqb k) names);
      now destruct (dict_get store k).
Qed.

Lemma include_loop_NoDup (store : Dict.t JSON) (names : list string) :
  forall acc,
  NoDup (dict_keys acc) ->
  NoDup (dict_keys (fold_left (include store) names acc)).
Proof.
  induction names as [| c names IH]; intros acc Hnd; simpl.
  - assumption.
  - apply IH. unfold include.
    destruct (dict_get store c); [now apply dict_set_NoDup | assumption].
Qed.

(** Names the store does not hold leave the selection as it was. *)
Lemma include_loop_absent (store : Dict.t JSON) (names : list string) :
  forall acc,
  (forall c, In c names -> dict_get store c = None) ->
  fold_left (include store) names acc = acc.
Proof.
  induction names as [| c names IH]; intros acc Habsent; simpl.
  - reflexivity.
  - unfold include at 2. rewrite (Habsent c) by now left.
    apply IH. intros c' Hin. apply Habsent. now right.
Qed.

Lemma with_suffix_endswith (component : string) :
  Str.endswith (with_suffix component) ".json" = true.
Proof.
  unfold with_suffix.
  destruct (Str.endswith component ".json") eqn:H;
    [assumption | apply StrFacts.endswith_append].
Qed.

Lemma with_suffix_idempotent (component : string) :
  with_suffix (with_suffix component) = with_suffix component.
Proof.
  unfold with_suffix at 1. now rewrite with_suffix_endswith.
Qed.

End SelectFacts.

(** C6.  With nothing requested the selection is total and is exactly the
    store cut down to the three default names, in their fixed order: a
    default name the store lacks is left out, and no other key comes in. *)
Theorem select_defaults (store : Dict.t JSON) :
  let selected := select_components store [] in
  selected =
    flat_map (fun name =>
                match dict_get store name with
                | Some doc => [(name, doc)]
                | None => []
                end)
             [ "framework-config.json"; "review-strategy.json";
               "content-structure.json" ] /\
  NoDup (dict_keys selected) /\
  (forall name, In name (dict_keys selected) ->
     In name [ "framework-config.json"; "review-strategy.json";
               "content-structure.json" ]) /\
  (forall name doc,
     dict_get selected name = Some doc <->
     In name [ "framework-config.json"; "review-strategy.json";
               "content-structure.json" ] /\
     dict_get store name = Some doc).
Proof.
  assert (Hget : forall name doc,
             dict_get (select_components store []) name = Some doc <->
             In name default_components /\ dict_get store name = Some doc).
  { intros name doc. unfold select_components.
    rewrite SelectFacts.include_loop_get, <- StoreFacts.existsb_eqb_In.
    destruct (existsb (String.eqb name) default_components).
    - destruct (dict_get store name); simpl; intuition congruence.
    - simpl. intuition discriminate. }
  cbv zeta. split; [| split; [| split]].
  - unfold select_components, default_components, include. simpl.
    destruct (dict_get store "framework-config.json");
      destruct (dict_get store "review-strategy.json");
      destruct (dict_get store "content-structure.json"); reflexivity.
  - apply SelectFacts.include_loop_NoDup. constructor.
  - intros name Hin.
    destruct (DictFacts.in_keys_dict_get _ _ Hin) as [doc Hdoc].
    now apply Hget in Hdoc.
  - exact Hget.
Qed.

Lemma select_defaults_witness :
  dict_get (select_components (load_framework_files Sample.enabled) [])
           "framework-config.json" = Some (JDict []) /\
  In "framework-config.json"
     [ "framework-config.json"; "review-strategy.json";
       "content-structure.json" ].
Proof.
  split.
  - apply (proj2 (proj2 (proj2
             (select_defaults (load_framework_files Sample.enabled))))).
    split; [simpl; tauto | reflexivity].
  - apply (proj1 (proj2 (proj2
             (select_defaults (load_framework_files Sample.enabled))))).
    simpl. tauto.
Defined.

(** C5, as the code has it.  For a name that does not already end in
    [.json], requesting the name and requesting the name with the suffix
    select the same dictionary from every store. *)
Theorem select_suffix_forms_agree (store : Dict.t JSON) (x : string) :
  Str.endswith x ".json" = false ->
  select_components store [x] = select_components store [x ++ ".json"].
Proof.
  intros Hx. unfold select_components. simpl. unfold with_suffix.
  now rewrite Hx, StrFacts.endswith_append.
Qed.

Lemma select_suffix_forms_agree_witness :
  Str.endswith "review-strategy" ".json" = false /\
  select_components (load_framework_files Sample.enabled) ["review-strategy"]
  = select_components (load_framework_files Sample.enabled)
      ["review-strategy" ++ ".json"].
Proof.
  split.
  - reflexivity.
  - apply (select_suffix_forms_agree
             (load_framework_files Sample.enabled) "review-strategy").
    reflexivity.
Defined.

(** C5, as stated, fails for a name that already carries the suffix: the
    store holds [a.json]; requesting [a.json] selects it, requesting
    [a.json.json] selects nothing. *)
Lemma select_suffix_forms_differ :
  ~ (forall (x : string) (store : Dict.t JSON),
       select_components store [x] = select_components store [x ++ ".json"]).
Proof.
  intros Hall.
  specialize (Hall "a.json" [("a.json", JNull)]).
  discriminate Hall.
Qed.

(** ** The prompt *)

Module PromptFacts.

(** The f-string is four substitutions into a fixed text. *)
Lemma build_prompt_template w request components :
  build_prompt w request components =
  (Str.nl
   ++ "    You are a professional product reviewer using the Amazon Review Framework."
   ++ Str.nl ++ "    " ++ Str.nl ++ "    Product: ")
  ++ product_name request
  ++ (Str.nl ++ "    Category: ")
  ++ product_category request
  ++ (Str.nl ++ "    " ++ Str.nl ++ "    User's experience with the product:"
      ++ Str.nl ++ "    ")
  ++ user_experience request
  ++ (Str.nl ++ "    " ++ Str.nl
      ++ "    Using the Amazon Review Framework components below, generate a comprehensive, "
      ++ Str.nl
      ++ "    well-structured review for this product. Follow the framework guidelines for structure,"
      ++ Str.nl ++ "    content balance, and authenticity."
      ++ Str.nl ++ "    " ++ Str.nl ++ "    Framework components to use:"
      ++ Str.nl ++ "    ")
  ++ json_dumps (encode_basestring w) (JDict components)
  ++ (Str.nl ++ "    " ++ Str.nl
      ++ "    Generate a complete review following these framework guidelines."
      ++ Str.nl ++ "    ").
Proof. reflexivity. Qed.

(** The same text cut into its four labelled sections. *)
Lemma build_prompt_sections w request components :
  build_prompt w request components =
  (Str.nl
   ++ "    You are a professional product reviewer using the Amazon Review Framework."
   ++ Str.nl ++ "    " ++ Str.nl ++ "    ")
  ++ ("Product: " ++ product_name request ++ Str.nl)
  ++ "    "
  ++ ("Category: " ++ product_category request ++ Str.nl)
  ++ ("    " ++ Str.nl ++ "    ")
  ++ ("User's experience with the product:" ++ Str.nl ++ "    "
      ++ user_experience request ++ Str.nl)
  ++ ("    " ++ Str.nl
      ++ "    Using the Amazon Review Framework components below, generate a comprehensive, "
      ++ Str.nl
      ++ "    well-structured review for this product. Follow the framework guidelines for structure,"
      ++ Str.nl ++ "    content balance, and authenticity."
      ++ Str.nl ++ "    " ++ Str.nl ++ "    ")
  ++ ("Framework components to use:" ++ Str.nl ++ "    "
      ++ json_dumps (encode_basestring w) (JDict components) ++ Str.nl)
  ++ ("    " ++ Str.nl
      ++ "    Generate a complete review following these framework guidelines."
      ++ Str.nl ++ "    ").
Proof.
  rewrite build_prompt_template, !StrFacts.append_assoc. reflexivity.
Qed.

(** The four sections follow one another in the prompt. *)
Lemma build_prompt_occur w request components :
  Str.occur_in_order
    [ "Product: " ++ product_name request ++ Str.nl;
      "Category: " ++ product_category request ++ Str.nl;
      "User's experience with the product:" ++ Str.nl ++ "    "
        ++ user_experience request ++ Str.nl;
      "Framework components to use:" ++ Str.nl ++ "    "
        ++ json_dumps (encode_basestring w) (JDict components) ++ Str.nl ]
    (build_prompt w request components).
Proof.
  rewrite build_prompt_sections.
  do 4 (apply Str.occur_cons). apply Str.occur_nil.
Qed.

End PromptFacts.

(** ** The generator and its handler *)

Module ReviewFacts.

(** With the flag unset nothing is loaded and nothing is sent. *)
Lemma generate_review_disabled w request :
  has_anthropic w = false ->
  generate_review w request = (Return disabled_message, []).
Proof. intros H. unfold generate_review. now rewrite H. Qed.

(** With the flag set, the client is called once with the prompt, and
    what it does, whatever it is, becomes an error sentence. *)
Lemma generate_review_enabled w request :
  has_anthropic w = true ->
  generate_review w request =
  (Return match messages_create w (prompt_of w request) with
          | Message _ => "Error generating review: " ++ await_error w
          | Failure message => "Error generating review: " ++ message
          end,
   [prompt_of w request]).
Proof.
  intros H. unfold generate_review, bind, call_service. rewrite H. simpl.
  destruct (messages_create w (prompt_of w request)) as [content | m];
    reflexivity.
Qed.

Lemma generate_review_returns w request :
  exists text, fst (generate_review w request) = Return text.
Proof.
  destruct (has_anthropic w) eqn:H.
  - rewrite (generate_review_enabled w request H). eexists. reflexivity.
  - rewrite (generate_review_disabled w request H). eexists. reflexivity.
Qed.

(** [create_review] wraps the text with the names it reports. *)
Lemma create_review_wraps w request text sent :
  generate_review w request = (Return text, sent) ->
  create_review w request =
  (Return {| review := text;
             components_used :=
               match include_components request with
               | [] => [ "framework-config.json"; "review-strategy.json";
                         "content-structure.json" ]
               | _ :: _ => map with_suffix (include_components request)
               end |},
   sent).
Proof.
  intros H. unfold create_review, bind, ret. rewrite H.
  rewrite app_nil_r. reflexivity.
Qed.

End ReviewFacts.

(** C7.  A request that names components, none of which (with the suffix)
    is in the store, selects the empty dictionary; the prompt built from
    that selection is the template with the literal [{}] as its components
    section; and when the store is the loaded one and generation is
    enabled, that prompt is the one sent to the service. *)
Theorem select_unknown_names (w : World) (request : ReviewRequest)
    (store : Dict.t JSON) :
  include_components request <> [] ->
  (forall c, In c (include_components request) ->
     dict_mem store (with_suffix c) = false) ->
  select_components store (include_components request) = [] /\
  Str.occur_in_order
    [ "Framework components to use:" ++ Str.nl ++ "    {}" ++ Str.nl ]
    (build_prompt w request
       (select_components store (include_components request))) /\
  (store = load_framework_files w -> has_anthropic w = true ->
   snd (generate_review w request) = [build_prompt w request []]).
Proof.
  intros Hne Habsent.
  assert (Hsel : select_components store (include_components request) = []).
  { unfold select_components.
    destruct (include_components request) as [| c cs] eqn:Hreq;
      [congruence |].
    rewrite SelectFacts.requested_loop_map.
    apply SelectFacts.include_loop_absent.
    intros name Hin. apply in_map_iff in Hin as [c' [<- Hc']].
    specialize (Habsent c' Hc'). unfold dict_mem in Habsent.
    now destruct (dict_get store (with_suffix c')). }
  split; [exact Hsel | split].
  - rewrite Hsel.
    pose proof (PromptFacts.build_prompt_occur w request []) as Hocc.
    do 3 apply StrFacts.occur_tail in Hocc.
    exact Hocc.
  - intros Hstore Henabled.
    rewrite (ReviewFacts.generate_review_enabled w request Henabled).
    unfold prompt_of. rewrite <- Hstore, Hsel. reflexivity.
Qed.

Lemma select_unknown_names_witness :
  select_components (load_framework_files Sample.enabled) ["nonexistent"] = []
  /\ snd (generate_review Sample.enabled (Sample.widget ["nonexistent"]))
     = [build_prompt Sample.enabled (Sample.widget ["nonexistent"]) []].
Proof.
  pose proof (select_unknown_names Sample.enabled
                (Sample.widget ["nonexistent"])
                (load_framework_files Sample.enabled)) as H.
  destruct H as (Hsel & _ & Hsent).
  - discriminate.
  - intros c [<- | []]. reflexivity.
  - split; [exact Hsel | apply Hsent; reflexivity].
Defined.

(** C8.  The prompt holds the product name, the category and the
    experience text as they were given, each in its labelled section, in
    the order product, category, experience, components, where the
    components section is the [json.dumps] text of the selection; for the
    empty selection that text is the literal [{}]. *)
Theorem build_prompt_embeds (w : World) (request : ReviewRequest)
    (components : Dict.t JSON) :
  Str.occur_in_order
    [ "Product: " ++ product_name request ++ Str.nl;
      "Category: " ++ product_category request ++ Str.nl;
      "User's experience with the product:" ++ Str.nl ++ "    "
        ++ user_experience request ++ Str.nl;
      "Framework components to use:" ++ Str.nl ++ "    "
        ++ json_dumps (encode_basestring w) (JDict components) ++ Str.nl ]
    (build_prompt w request components) /\
  Str.occur_in_order
    [ product_name request; product_category request;
      user_experience request;
      json_dumps (encode_basestring w) (JDict components) ]
    (build_prompt w request components) /\
  Str.occur_in_order
    [ "Product: " ++ product_name request ++ Str.nl;
      "Category: " ++ product_category request ++ Str.nl;
      "User's experience with the product:" ++ Str.nl ++ "    "
        ++ user_experience request ++ Str.nl;
      "Framework components to use:" ++ Str.nl ++ "    {}" ++ Str.nl ]
    (build_prompt w request []).
Proof.
  split; [| split].
  - apply PromptFacts.build_prompt_occur.
  - rewrite PromptFacts.build_prompt_template.
    do 4 (apply Str.occur_cons). apply Str.occur_nil.
  - exact (PromptFacts.build_prompt_occur w request []).
Qed.

(** C2.  Without a credential [generate_review] returns the fixed message,
    sends nothing and does not raise; a request that names no component
    is then answered with status 200, that message, and the three default
    names. *)
Theorem disabled_without_credential (w : World) (request : ReviewRequest) :
  ANTHROPIC_API_KEY w = None ->
  generate_review w request =
    (Return "Anthropic API key not set. Please configure the ANTHROPIC_API_KEY environment variable to use review generation.",
     []) /\
  (include_components request = [] ->
   snd (create_review w request) = [] /\
   post_generate_review w request =
     {| status := 200;
        content :=
          ReviewBody
            {| review := "Anthropic API key not set. Please configure the ANTHROPIC_API_KEY environment variable to use review generation.";
               components_used :=
                 [ "framework-config.json"; "review-strategy.json";
                   "content-structure.json" ] |} |}).
Proof.
  intros Hkey.
  assert (Hflag : has_anthropic w = false).
  { unfold has_anthropic. now rewrite Hkey. }
  pose proof (ReviewFacts.generate_review_disabled w request Hflag) as Hgen.
  split; [exact Hgen |].
  intros Hnone. unfold post_generate_review.
  rewrite (ReviewFacts.create_review_wraps w request _ _ Hgen), Hnone.
  split; reflexivity.
Qed.

Lemma disabled_without_credential_witness :
  generate_review Sample.disabled (Sample.widget []) =
    (Return disabled_message, []) /\
  status (post_generate_review Sample.disabled (Sample.widget [])) = 200%Z.
Proof.
  destruct (disabled_without_credential Sample.disabled (Sample.widget []))
    as [Hgen Hpost].
  - reflexivity.
  - split; [exact Hgen |].
    destruct (Hpost eq_refl) as [_ Hresp]. rewrite Hresp. reflexivity.
Defined.



(** ** The file handler *)

Module FileFacts.

(** The three ways through [get_file]. *)
Lemma get_file_cases w filename :
  let name := with_suffix filename in
  let path := os_path_join FRAMEWORK_DIR name in
  get_file w filename =
  match dict_get (load_framework_files w) name with
  | Some doc => Return doc
  | None =>
      match (if os_path_exists w path then open_json w path
             else Raise (Exception "")) with
      | Return doc => Return doc
      | Raise _ =>
          Raise (HTTPException 404
                   ("File " ++ name ++ " not found in " ++ FRAMEWORK_DIR))
      end
  end.
Proof.
  cbv zeta. unfold get_file.
  destruct (dict_get (load_framework_files w) (with_suffix filename));
    [reflexivity |].
  now destruct (os_path_exists w
                  (os_path_join FRAMEWORK_DIR (with_suffix filename))).
Qed.

End FileFacts.



(** C10.  When the store has no entry for the suffixed name, the file at
    the direct path exists and its text does not parse, the answer is the
    same 404: the decoder's exception does not reach the client. *)
Theorem unparsable_file_is_not_found (w : World) (filename text : string)
    (e : exn) :
  let name := with_suffix filename in
  let path := os_path_join FRAMEWORK_DIR name in
  dict_mem (load_framework_files w) name = false ->
  lookup w path = Regular text ->
  json_load w text = Raise e ->
  os_path_exists w path = true /\
  get_file w filename =
    Raise (HTTPException 404 ("File " ++ name ++ " not found in NEW-SYSTEM")) /\
  get_files_filename w filename =
    {| status := 404;
       content := DetailBody ("File " ++ name ++ " not found in NEW-SYSTEM") |}.
Proof.
  cbv zeta. intros Habsent Hfile Hparse.
  assert (Hexists : os_path_exists w
            (os_path_join FRAMEWORK_DIR (with_suffix filename)) = true).
  { unfold os_path_exists. now rewrite Hfile. }
  assert (Hget : get_file w filename =
                 Raise (HTTPException 404
                          ("File " ++ with_suffix filename
                           ++ " not found in NEW-SYSTEM"))).
  { rewrite FileFacts.get_file_cases. cbv zeta.
    unfold dict_mem in Habsent.
    destruct (dict_get (load_framework_files w) (with_suffix filename));
      [discriminate |].
    rewrite Hexists. unfold open_json. rewrite Hfile, Hparse. reflexivity. }
  split; [exact Hexists | split; [exact Hget |]].
  unfold get_files_filename. rewrite Hget. reflexivity.
Qed.

Lemma unparsable_file_is_not_found_witness :
  get_files_filename Sample.enabled "broken"
  = {| status := 404;
       content := DetailBody "File broken.json not found in NEW-SYSTEM" |}.
Proof.
  apply (unparsable_file_is_not_found Sample.enabled "broken" "{oops"
           (Exception "Expecting value: line 1 column 1 (char 0)"));
    reflexivity.
Defined.

(** C1 on a request that names a component the store does not hold: the
    selection that goes into the prompt is empty, and the answer lists
    the name all the same. *)
Lemma components_used_lists_absent_name :
  select_components (load_framework_files Sample.enabled)
    (include_components (Sample.widget ["nonexistent"])) = [] /\
  snd (create_review Sample.enabled (Sample.widget ["nonexistent"]))
  = [build_prompt Sample.enabled (Sample.widget ["nonexistent"]) []] /\
  post_generate_review Sample.enabled (Sample.widget ["nonexistent"])
  = {| status := 200;
       content :=
         ReviewBody {| review := "Error generating review: rate limit exceeded";
                       components_used := ["nonexistent.json"] |} |}.
Proof. repeat split. Qed.

(** * Further properties of the handlers *)

(** ** Dictionaries, by position *)

Module DictOrder.

Section WithValue.

Context {V : Type}.

Implicit Types (d : Dict.t V) (k : string) (v : V).

(** A new key goes to the end. *)
Lemma dict_set_fresh d k v :
  dict_get d k = None -> dict_set d k v = (d ++ [(k, v)])%list.
Proof.
  induction d as [| [k0 v0] d IH]; simpl; [reflexivity |].
  destruct (k0 =? k); [discriminate |].
  intros H. now rewrite IH.
Qed.

(** Writing the value a key already has changes nothing. *)
Lemma dict_set_same d k v :
  dict_get d k = Some v -> dict_set d k v = d.
Proof.
  induction d as [| [k0 v0] d IH]; simpl; [discriminate |].
  destruct (String.eqb_spec k0 k) as [-> | Hne].
  - now intros [= ->].
  - intros H. now rewrite IH.
Qed.

Lemma dict_set_length d k v :
  (length (dict_set d k v) <= S (length d))%nat.
Proof.
  induction d as [| [k0 v0] d IH]; simpl; [lia |].
  destruct (k0 =? k); simpl; lia.
Qed.

Lemma dict_keys_length d : length (dict_keys d) = length d.
Proof. apply length_map. Qed.


End WithValue.

End DictOrder.

(** ** The store, by position *)

Module StoreOrder.

Import DictFacts DictOrder.

(** Whether a listed name gets an entry. *)
Lemma load_one_keys w acc filename :
  dict_get acc filename = None ->
  dict_keys (load_one w acc filename) =
  (dict_keys acc ++
   if Str.endswith filename ".json" then
     match open_json w (os_path_join FRAMEWORK_DIR filename) with
     | Return _ => [filename]
     | Raise _ => []
     end
   else [])%list.
Proof.
  intros Hfresh. unfold load_one.
  destruct (Str.endswith filename ".json"); [| now rewrite app_nil_r].
  destruct (open_json w (os_path_join FRAMEWORK_DIR filename)) as [doc | e];
    [| now rewrite app_nil_r].
  rewrite (dict_set_fresh _ _ _ Hfresh). unfold dict_keys.
  now rewrite map_app.
Qed.

Lemma load_loop_keys w names : forall acc,
  NoDup names ->
  (forall n, In n names -> dict_get acc n = None) ->
  dict_keys (fold_left (load_one w) names acc) =
  (dict_keys acc ++
   filter (fun n =>
             Str.endswith n ".json" &&
             match open_json w (os_path_join FRAMEWORK_DIR n) with
             | Return _ => true
             | Raise _ => false
             end) names)%list.
Proof.
  induction names as [| n names IH]; intros acc Hnd Hfresh; simpl.
  - now rewrite app_nil_r.
  - inversion Hnd as [| ? ? Hnotin Hnd']; subst.
    rewrite IH; [| assumption |].
    + rewrite (load_one_keys w acc n) by (apply Hfresh; now left).
      rewrite <- app_assoc. f_equal.
      destruct (Str.endswith n ".json"); simpl; [| reflexivity].
      now destruct (open_json w (os_path_join FRAMEWORK_DIR n)).
    + intros m Hm. rewrite StoreFacts.load_one_get.
      destruct (String.eqb_spec n m) as [-> | Hne]; [contradiction |].
      simpl. apply Hfresh. now right.
Qed.

Lemma load_loop_length w names : forall acc,
  (length (fold_left (load_one w) names acc)
   <= length acc
      + length (filter (fun f => Str.endswith f ".json") names))%nat.
Proof.
  induction names as [| n names IH]; intros acc; simpl; [lia |].
  specialize (IH (load_one w acc n)). unfold load_one in *.
  destruct (Str.endswith n ".json"); simpl; [| lia].
  destruct (open_json w (os_path_join FRAMEWORK_DIR n)) as [doc | e];
    [| lia].
  pose proof (dict_set_length acc n doc). lia.
Qed.

(** Every key of the store is a listed name that ends in [.json]. *)
Lemma store_key_listed w k :
  In k (dict_keys (load_framework_files w)) ->
  framework_dir_exists w = true /\ In k (listdir w) /\
  Str.endswith k ".json" = true.
Proof.
  intros Hin. apply in_keys_dict_get in Hin as [doc Hdoc].
  unfold load_framework_files in Hdoc.
  destruct (framework_dir_exists w); [| discriminate].
  simpl in Hdoc. rewrite StoreFacts.load_loop_get in Hdoc.
  destruct (existsb (String.eqb k) (listdir w)) eqn:Hex;
    [| discriminate].
  destruct (Str.endswith k ".json"); [| discriminate].
  apply StoreFacts.existsb_eqb_In in Hex. auto.
Qed.

Lemma store_NoDup w : NoDup (dict_keys (load_framework_files w)).
Proof.
  unfold load_framework_files.
  destruct (framework_dir_exists w); simpl.
  - apply StoreFacts.load_loop_NoDup. constructor.
  - constructor.
Qed.

End StoreOrder.

(** X1.  When the directory listing names no file twice, the keys of the
    store are the listed names that end in [.json] and whose file opens
    and parses, in the order of the listing. *)
Theorem store_keys_in_listing_order (w : World) :
  framework_dir_exists w = true ->
  NoDup (listdir w) ->
  dict_keys (load_framework_files w) =
  filter (fun n =>
            Str.endswith n ".json" &&
            match open_json w (os_path_join FRAMEWORK_DIR n) with
            | Return _ => true
            | Raise _ => false
            end) (listdir w).
Proof.
  intros Hdir Hnd. unfold load_framework_files. rewrite Hdir. simpl.
  now rewrite StoreOrder.load_loop_keys.
Qed.

Lemma store_keys_in_listing_order_witness :
  dict_keys (load_framework_files Sample.enabled)
  = ["framework-config.json"; "review-strategy.json"].
Proof.
  rewrite (store_keys_in_listing_order Sample.enabled).
  - reflexivity.
  - reflexivity.
  - repeat constructor; simpl; intuition discriminate.
Defined.

(** X2.  The names offered by the component check boxes are all among the
    names offered by the file viewer, which are the listed names ending in
    [.json]; so the store never has more entries than the listing has such
    names. *)
Theorem choices_within_json_files (w : World) :
  (forall name, In name (component_choices w) -> In name (json_files w)) /\
  (length (load_framework_files w) <= length (json_files w))%nat.
Proof.
  split.
  - intros name Hin. unfold component_choices in Hin.
    apply StoreOrder.store_key_listed in Hin as (Hdir & Hlisted & Hjson).
    unfold json_files. rewrite Hdir. apply filter_In. auto.
  - unfold load_framework_files, json_files.
    destruct (framework_dir_exists w); simpl; [| lia].
    pose proof (StoreOrder.load_loop_length w (listdir w) []) as H.
    simpl in H. exact H.
Qed.

Lemma choices_within_json_files_witness :
  In "review-strategy.json" (json_files Sample.enabled).
Proof.
  apply (proj1 (choices_within_json_files Sample.enabled)).
  simpl. tauto.
Defined.

(** ** The selection, by position *)

Module SelectOrder.

Import DictFacts DictOrder.

(** A request that names components is one loop over the suffixed
    names. *)
Lemma select_requested (store : Dict.t JSON) (requested : list string) :
  requested <> [] ->
  select_components store requested =
  fold_left (include store) (map with_suffix requested) [].
Proof.
  intros Hne. unfold select_components.
  destruct requested as [| c cs]; [congruence |].
  apply SelectFacts.requested_loop_map.
Qed.

(** The names the selection works through. *)
Lemma select_names (store : Dict.t JSON) (requested : list string) :
  select_components store requested =
  fold_left (include store)
    match requested with
    | [] => default_components
    | _ :: _ => map with_suffix requested
    end [].
Proof.
  destruct requested as [| c cs]; [reflexivity |].
  now apply select_requested.
Qed.

Lemma include_absent (store acc : Dict.t JSON) (name : string) :
  dict_mem store name = false -> include store acc name = acc.
Proof.
  unfold dict_mem, include.
  now destruct (dict_get store name).
Qed.

(** Names the store lacks can be struck from the loop. *)
Lemma include_loop_known (store : Dict.t JSON) (prepare : string -> string)
    (names : list string) : forall acc,
  fold_left (include store) (map prepare names) acc =
  fold_left (include store)
    (map prepare (filter (fun c => dict_mem store (prepare c)) names)) acc.
Proof.
  induction names as [| c names IH]; intros acc; simpl; [reflexivity |].
  destruct (dict_mem store (prepare c)) eqn:Hmem; simpl.
  - apply IH.
  - rewrite (include_absent _ _ _ Hmem). apply IH.
Qed.

(** With every name in the store and none twice, the keys come out in the
    order of the names. *)
Lemma include_loop_keys (store : Dict.t JSON) (names : list string) :
  forall acc,
  NoDup names ->
  (forall n, In n names -> dict_mem store n = true) ->
  (forall n, In n names -> dict_get acc n = None) ->
  dict_keys (fold_left (include store) names acc)
  = (dict_keys acc ++ names)%list.
Proof.
  induction names as [| n names IH]; intros acc Hnd Hstore Hfresh; simpl.
  - now rewrite app_nil_r.
  - inversion Hnd as [| ? ? Hnotin Hnd']; subst.
    assert (Hn : dict_mem store n = true) by (apply Hstore; now left).
    unfold dict_mem in Hn.
    destruct (dict_get store n) as [doc |] eqn:Hdoc; [| discriminate].
    rewrite IH; [| assumption | intros m Hm; apply Hstore; now right |].
    + unfold include. rewrite Hdoc.
      rewrite (dict_set_fresh acc n doc) by (apply Hfresh; now left).
      unfold dict_keys. rewrite map_app, <- app_assoc. reflexivity.
    + intros m Hm. rewrite SelectFacts.include_get.
      destruct (String.eqb_spec n m) as [-> | Hne]; [contradiction |].
      apply Hfresh. now right.
Qed.

Lemma include_loop_length (store : Dict.t JSON) (names : list string) :
  forall acc,
  (length (fold_left (include store) names acc)
   <= length acc + length names)%nat.
Proof.
  induction names as [| n names IH]; intros acc; simpl; [lia |].
  specialize (IH (include store acc n)). unfold include in *.
  destruct (dict_get store n) as [doc |]; [| lia].
  pose proof (dict_set_length acc n doc). lia.
Qed.

End SelectOrder.

(** X3.  For a request that names components, the selection maps a key to
    a document exactly when the key is the suffixed form of a requested
    name and the store maps it to that document; no key appears twice,
    however often a name is requested. *)
Theorem select_requested_entries (store : Dict.t JSON)
    (requested : list string) :
  requested <> [] ->
  NoDup (dict_keys (select_components store requested)) /\
  forall key doc,
    dict_get (select_components store requested) key = Some doc <->
    (exists c, In c requested /\ with_suffix c = key) /\
    dict_get store key = Some doc.
Proof.
  intros Hne. rewrite (SelectOrder.select_requested store requested Hne).
  split.
  - apply SelectFacts.include_loop_NoDup. constructor.
  - intros key doc. rewrite SelectFacts.include_loop_get.
    destruct (existsb (String.eqb key) (map with_suffix requested)) eqn:Hex.
    + apply StoreFacts.existsb_eqb_In in Hex.
      apply in_map_iff in Hex as [c [Hc Hin]].
      destruct (dict_get store key); simpl; split.
      * intros ->. split; [now exists c | reflexivity].
      * now intros [_ ->].
      * discriminate.
      * intros [_ ?]. discriminate.
    + simpl. split; [discriminate |].
      intros [[c [Hin Hc]] _].
      assert (Hin' : In key (map with_suffix requested)).
      { apply in_map_iff. now exists c. }
      apply StoreFacts.existsb_eqb_In in Hin'. congruence.
Qed.

Lemma select_requested_entries_witness :
  dict_get (select_components (load_framework_files Sample.enabled)
              ["nonexistent"; "review-strategy"; "review-strategy.json"])
           "review-strategy.json"
  = Some (JList [JInt 1; JInt 2]).
Proof.
  apply (select_requested_entries (load_framework_files Sample.enabled)
           ["nonexistent"; "review-strategy"; "review-strategy.json"]).
  - discriminate.
  - split; [| reflexivity].
    exists "review-strategy". split; [simpl; tauto | reflexivity].
Defined.

(** X4.  Requested names that the store lacks are skipped: as long as one
    requested name is in the store, the selection is the one of the
    request with the unknown names struck out. *)
Theorem select_skips_unknown (store : Dict.t JSON)
    (requested : list string) :
  filter (fun c => dict_mem store (with_suffix c)) requested <> [] ->
  select_components store requested =
  select_components store
    (filter (fun c => dict_mem store (with_suffix c)) requested).
Proof.
  intros Hknown.
  assert (Hne : requested <> []) by (intros ->; now apply Hknown).
  rewrite (SelectOrder.select_requested store requested Hne).
  rewrite (SelectOrder.select_requested store _ Hknown).
  apply SelectOrder.include_loop_known.
Qed.

Lemma select_skips_unknown_witness :
  select_components (load_framework_files Sample.enabled)
    ["nonexistent"; "review-strategy"; "broken"]
  = select_components (load_framework_files Sample.enabled)
      ["review-strategy"].
Proof.
  apply (select_skips_unknown (load_framework_files Sample.enabled)
           ["nonexistent"; "review-strategy"; "broken"]).
  discriminate.
Defined.

(** X5.  Requesting once more a name that is already requested, in either
    form, leaves the selection as it is. *)
Theorem select_repeated_name (store : Dict.t JSON)
    (requested : list string) (c : string) :
  In (with_suffix c) (map with_suffix requested) ->
  select_components store (requested ++ [c])
  = select_components store requested.
Proof.
  intros Hin.
  assert (Hne : requested <> []) by (intros ->; contradiction).
  rewrite (SelectOrder.select_requested store requested Hne).
  rewrite SelectOrder.select_requested
    by (intros H; apply app_eq_nil in H as [_ H]; discriminate).
  rewrite map_app, fold_left_app. simpl.
  unfold include at 1.
  destruct (dict_get store (with_suffix c)) as [doc |] eqn:Hdoc;
    [| reflexivity].
  apply DictOrder.dict_set_same.
  rewrite SelectFacts.include_loop_get, Hdoc.
  apply StoreFacts.existsb_eqb_In in Hin. now rewrite Hin.
Qed.

Lemma select_repeated_name_witness :
  select_components (load_framework_files Sample.enabled)
    (["review-strategy"; "framework-config"] ++ ["review-strategy.json"])
  = select_components (load_framework_files Sample.enabled)
      ["review-strategy"; "framework-config"].
Proof.
  apply (select_repeated_name (load_framework_files Sample.enabled)
           ["review-strategy"; "framework-config"] "review-strategy.json").
  simpl. tauto.
Defined.

(** X6.  The selection never has more entries than names were requested,
    and never more than three when none was. *)
Theorem select_size_bound (store : Dict.t JSON) (requested : list string) :
  (length (select_components store requested)
   <= match requested with
      | [] => 3
      | _ :: _ => length requested
      end)%nat.
Proof.
  rewrite SelectOrder.select_names.
  pose proof (SelectOrder.include_loop_length store
                match requested with
                | [] => default_components
                | _ :: _ => map with_suffix requested
                end []) as H.
  destruct requested as [| c cs]; simpl in *; [exact H |].
  now rewrite length_map in H.
Qed.

(** ** What the review handler reports *)

Module ReportFacts.

(** The answer of [create_review]: the text of the generator and the
    names worked out from the request. *)
Lemma create_review_reports w request :
  exists text,
    generate_review w request
    = (Return text, snd (generate_review w request)) /\
    create_review w request =
    (Return {| review := text;
               components_used :=
                 match include_components request with
                 | [] => default_components
                 | _ :: _ => map with_suffix (include_components request)
                 end |},
     snd (generate_review w request)).
Proof.
  destruct (ReviewFacts.generate_review_returns w request) as [text Htext].
  exists text.
  assert (Hgen : generate_review w request
                 = (Return text, snd (generate_review w request))).
  { rewrite <- Htext. now destruct (generate_review w request). }
  split; [exact Hgen |].
  apply (ReviewFacts.create_review_wraps w request _ _ Hgen).
Qed.

(** The selection only has keys among those names. *)
Lemma selected_key_named (store : Dict.t JSON) (requested : list string)
    (key : string) :
  In key (dict_keys (select_components store requested)) ->
  In key match requested with
         | [] => default_components
         | _ :: _ => map with_suffix requested
         end.
Proof.
  intros Hin. apply DictFacts.in_keys_dict_get in Hin as [doc Hdoc].
  rewrite SelectOrder.select_names, SelectFacts.include_loop_get in Hdoc.
  destruct (existsb (String.eqb key) _) eqn:Hex; [| discriminate].
  now apply StoreFacts.existsb_eqb_In in Hex.
Qed.

End ReportFacts.

(** X7.  Every component embedded in the prompt is reported: a key of the
    selection built from the loaded store is among the [components_used]
    of the answer. *)
Theorem used_components_are_reported (w : World) (request : ReviewRequest)
    (key : string) :
  In key (dict_keys (select_components (load_framework_files w)
                       (include_components request))) ->
  exists answer,
    fst (create_review w request) = Return answer /\
    In key (components_used answer).
Proof.
  intros Hin.
  destruct (ReportFacts.create_review_reports w request)
    as [text [_ Hcreate]].
  rewrite Hcreate. eexists. split; [reflexivity |]. simpl.
  now apply ReportFacts.selected_key_named in Hin.
Qed.

Lemma used_components_are_reported_witness :
  exists answer,
    fst (create_review Sample.enabled
           (Sample.widget ["review-strategy"; "nonexistent"]))
    = Return answer /\
    In "review-strategy.json" (components_used answer).
Proof.
  apply (used_components_are_reported Sample.enabled
           (Sample.widget ["review-strategy"; "nonexistent"])
           "review-strategy.json").
  simpl. tauto.
Defined.

(** X8.  When the names the request stands for (the three defaults for an
    empty request, the suffixed names otherwise) are all in the store and
    none occurs twice, [components_used] is exactly the list of keys of
    the selection embedded in the prompt, in the same order. *)
Theorem reported_components_exact (w : World) (request : ReviewRequest) :
  let names :=
    match include_components request with
    | [] => [ "framework-config.json"; "review-strategy.json";
              "content-structure.json" ]
    | _ :: _ => map with_suffix (include_components request)
    end in
  NoDup names ->
  (forall n, In n names -> dict_mem (load_framework_files w) n = true) ->
  exists text,
    fst (create_review w request) =
    Return {| review := text;
              components_used :=
                dict_keys (select_components (load_framework_files w)
                             (include_components request)) |}.
Proof.
  cbv zeta. intros Hnd Hstore.
  destruct (ReportFacts.create_review_reports w request)
    as [text [_ Hcreate]].
  exists text. rewrite Hcreate. simpl. do 2 f_equal.
  rewrite SelectOrder.select_names.
  rewrite SelectOrder.include_loop_keys; try assumption; reflexivity.
Qed.

Lemma reported_components_exact_witness :
  exists text,
    fst (create_review Sample.enabled
           (Sample.widget ["review-strategy"; "framework-config.json"])) =
    Return {| review := text;
              components_used :=
                dict_keys
                  (select_components (load_framework_files Sample.enabled)
                     ["review-strategy"; "framework-config.json"]) |}.
Proof.
  apply (reported_components_exact Sample.enabled
           (Sample.widget ["review-strategy"; "framework-config.json"])).
  - repeat constructor; simpl; intuition discriminate.
  - intros n [<- | [<- | []]]; reflexivity.
Defined.

(** X9.  Ticking check boxes of the form: for a non-empty choice without
    repetition among the offered components, the selection has exactly
    the ticked names as keys, in the order ticked, each with the document
    of the store. *)
Theorem ticked_components_selected (w : World) (ticked : list string) :
  ticked <> [] ->
  NoDup ticked ->
  (forall c, In c ticked -> In c (component_choices w)) ->
  dict_keys (select_components (load_framework_files w) ticked) = ticked /\
  forall c, In c ticked ->
    dict_get (select_components (load_framework_files w) ticked) c
    = dict_get (load_framework_files w) c.
Proof.
  intros Hne Hnd Hoffered.
  assert (Hsame : map with_suffix ticked = ticked).
  { rewrite <- (map_id ticked) at 2. apply map_ext_in.
    intros c Hc. unfold with_suffix.
    apply Hoffered, StoreOrder.store_key_listed in Hc as (_ & _ & Hjson).
    now rewrite Hjson. }
  assert (Hmem : forall c, In c ticked ->
                   dict_mem (load_framework_files w) c = true).
  { intros c Hc. apply Hoffered in Hc. unfold component_choices in Hc.
    apply DictFacts.in_keys_dict_get in Hc as [doc Hdoc].
    unfold dict_mem. now rewrite Hdoc. }
  rewrite (SelectOrder.select_requested _ _ Hne), Hsame.
  split.
  - rewrite SelectOrder.include_loop_keys; auto.
  - intros c Hc. rewrite SelectFacts.include_loop_get.
    apply StoreFacts.existsb_eqb_In in Hc as Hex. rewrite Hex.
    specialize (Hmem c Hc). unfold dict_mem in Hmem.
    now destruct (dict_get (load_framework_files w) c).
Qed.

Lemma ticked_components_selected_witness :
  dict_keys (select_components (load_framework_files Sample.enabled)
               ["review-strategy.json"; "framework-config.json"])
  = ["review-strategy.json"; "framework-config.json"].
Proof.
  apply (ticked_components_selected Sample.enabled
           ["review-strategy.json"; "framework-config.json"]).
  - discriminate.
  - repeat constructor; simpl; intuition discriminate.
  - intros c [<- | [<- | []]]; simpl; tauto.
Defined.

(** X10.  The answer of [create_review] always reports at least one name,
    every reported name ends in [.json], and there are as many as names
    requested, or three when none was. *)
Theorem reported_components_shape (w : World) (request : ReviewRequest) :
  exists answer,
    fst (create_review w request) = Return answer /\
    components_used answer <> [] /\
    (forall name, In name (components_used answer) ->
       Str.endswith name ".json" = true) /\
    length (components_used answer)
    = match include_components request with
      | [] => 3%nat
      | _ :: _ => length (include_components request)
      end.
Proof.
  destruct (ReportFacts.create_review_reports w request)
    as [text [_ Hcreate]].
  rewrite Hcreate. eexists. split; [reflexivity |]. simpl.
  destruct (include_components request) as [| c cs].
  - split; [discriminate | split; [| reflexivity]].
    intros name [<- | [<- | [<- | []]]]; reflexivity.
  - split; [discriminate | split].
    + intros name Hin. apply in_map_iff in Hin as [c' [<- _]].
      apply SelectFacts.with_suffix_endswith.
    + apply length_map.
Qed.

Lemma reported_components_shape_witness :
  exists answer,
    fst (create_review Sample.disabled (Sample.widget ["a"; "b.json"]))
    = Return answer /\
    length (components_used answer) = 2%nat.
Proof.
  destruct (reported_components_shape Sample.disabled
              (Sample.widget ["a"; "b.json"]))
    as [answer (Hanswer & _ & _ & Hlen)].
  exists answer. split; [exact Hanswer | exact Hlen].
Defined.

(** ** The generator, case by case *)

Module GenerateFacts.


(** Two requests with the same texts, the same selection and the same
    reported names are answered alike. *)
Lemma create_review_ext w r1 r2 :
  product_name r1 = product_name r2 ->
  product_category r1 = product_category r2 ->
  user_experience r1 = user_experience r2 ->
  select_components (load_framework_files w) (include_components r1)
  = select_components (load_framework_files w) (include_components r2) ->
  match include_components r1 with
  | [] => default_components
  | _ :: _ => map with_suffix (include_components r1)
  end
  = match include_components r2 with
    | [] => default_components
    | _ :: _ => map with_suffix (include_components r2)
    end ->
  create_review w r1 = create_review w r2.
Proof.
  intros Hname Hcat Hexp Hsel Hnames.
  assert (Hprompt : prompt_of w r1 = prompt_of w r2).
  { unfold prompt_of, build_prompt. now rewrite Hname, Hcat, Hexp, Hsel. }
  assert (Hgen : generate_review w r1 = generate_review w r2).
  { unfold generate_review. now rewrite Hprompt. }
  destruct (ReportFacts.create_review_reports w r1) as [t1 [_ H1]].
  destruct (ReportFacts.create_review_reports w r2) as [t2 [G2 H2]].
  rewrite H1, H2, Hnames, Hgen.
  rewrite <- Hgen in G2 at 1.
  destruct (ReportFacts.create_review_reports w r1) as [t1' [G1 H1']].
  rewrite H1 in H1'. injection H1' as Ht. subst t1'.
  rewrite G1 in G2. injection G2 as Ht _. now subst.
Qed.

End GenerateFacts.





(** X15.  The answer depends on the requested names only through their
    suffixed forms: two requests with the same three texts whose name
    lists agree once [.json] is appended where missing get the same
    answer and send the same prompt. *)
Theorem same_suffixed_names_same_answer (w : World)
    (name category experience : string) (l1 l2 : list string) :
  map with_suffix l1 = map with_suffix l2 ->
  create_review w {| product_name := name; product_category := category;
                     user_experience := experience;
                     include_components := l1 |}
  = create_review w {| product_name := name; product_category := category;
                       user_experience := experience;
                       include_components := l2 |}.
Proof.
  intros Hmap.
  apply GenerateFacts.create_review_ext; try reflexivity;
    cbn [include_components].
  - rewrite !SelectOrder.select_names.
    destruct l1, l2; try discriminate; [reflexivity | now rewrite Hmap].
  - destruct l1, l2; try discriminate; [reflexivity | exact Hmap].
Qed.

Lemma same_suffixed_names_same_answer_witness :
  create_review Desk.answering
    (Sample.widget ["review-strategy"; "framework-config.json"])
  = create_review Desk.answering
      (Sample.widget ["review-strategy.json"; "framework-config"]).
Proof.
  apply (same_suffixed_names_same_answer Desk.answering
           "Widget" "Tools" "Works great"
           ["review-strategy"; "framework-config.json"]
           ["review-strategy.json"; "framework-config"]).
  reflexivity.
Defined.


(** ** Files over HTTP and in the viewer *)

Module ServeFacts.

(** A file that opens and parses exists. *)
Lemma open_json_exists w path doc :
  open_json w path = Return doc -> os_path_exists w path = true.
Proof.
  unfold open_json, os_path_exists.
  now destruct (lookup w path).
Qed.


(** What a 200 from [get_file] carries. *)
Lemma get_file_returns w filename doc :
  get_file w filename = Return doc ->
  open_json w (os_path_join FRAMEWORK_DIR (with_suffix filename))
  = Return doc.
Proof.
  rewrite FileFacts.get_file_cases. cbv zeta.
  destruct (dict_get (load_framework_files w) (with_suffix filename))
    as [doc' |] eqn:Hstore.
  - intros [= ->]. now apply StoreFacts.store_entry_parses.
  - destruct (os_path_exists w _); [| discriminate].
    destruct (open_json w _) as [doc' | e]; [| discriminate].
    now intros [= ->].
Qed.

Lemma respond_json_200 (o : outcome JSON) (doc : JSON) :
  respond JsonBody o = {| status := 200; content := JsonBody doc |} ->
  o = Return doc.
Proof.
  destruct o as [d | [m | code detail]]; simpl; try discriminate.
  destruct (json_compliant d); [now intros [= ->] | discriminate].
Qed.


End ServeFacts.

(** X17.  The suffix is appended once: asking for a name and asking for
    its suffixed form is the same request, over HTTP and in the viewer.
    In particular [GET /files/x] and [GET /files/x.json] have the same
    answer when [x] does not itself end in [.json]. *)
Theorem suffix_appended_once (w : World) (filename : string) :
  get_file w (with_suffix filename) = get_file w filename /\
  get_framework_file w (with_suffix filename)
  = get_framework_file w filename /\
  (Str.endswith filename ".json" = false ->
   get_files_filename w (filename ++ ".json")
   = get_files_filename w filename).
Proof.
  split; [| split].
  - unfold get_file. now rewrite SelectFacts.with_suffix_idempotent.
  - unfold get_framework_file.
    now rewrite SelectFacts.with_suffix_idempotent.
  - intros Hplain. unfold get_files_filename, get_file.
    replace (with_suffix (filename ++ ".json")) with (with_suffix filename);
      [reflexivity |].
    unfold with_suffix.
    now rewrite Hplain, StrFacts.endswith_append.
Qed.

Lemma suffix_appended_once_witness :
  get_files_filename Sample.enabled ("review-strategy" ++ ".json")
  = get_files_filename Sample.enabled "review-strategy".
Proof.
  apply (suffix_appended_once Sample.enabled "review-strategy").
  reflexivity.
Defined.

(** X18.  Whatever document [GET /files/{filename}] serves with status
    200, from the store or from the direct path, the file of the suffixed
    name exists under the framework directory and parses to exactly that
    document. *)
Theorem served_document_is_the_file (w : World) (filename : string)
    (doc : JSON) :
  get_files_filename w filename
  = {| status := 200; content := JsonBody doc |} ->
  os_path_exists w (os_path_join "NEW-SYSTEM" (with_suffix filename)) = true
  /\ open_json w (os_path_join "NEW-SYSTEM" (with_suffix filename))
     = Return doc.
Proof.
  intros Hserved. unfold get_files_filename in Hserved.
  apply ServeFacts.respond_json_200, ServeFacts.get_file_returns in Hserved.
  split; [| exact Hserved].
  now apply ServeFacts.open_json_exists in Hserved.
Qed.

Lemma served_document_is_the_file_witness :
  open_json Sample.enabled
    (os_path_join "NEW-SYSTEM" (with_suffix "review-strategy"))
  = Return (JList [JInt 1; JInt 2]).
Proof.
  apply (served_document_is_the_file Sample.enabled "review-strategy").
  reflexivity.
Defined.



(** X20.  In the answer of [list_files], [count] is the number of names in
    [files]; the names are distinct, end in [.json] and come from the
    directory listing; [root_directories] holds directories only; and when
    the framework directory is missing the list is empty, the count zero
    and [directory_exists] false. *)
Theorem list_files_summary (w : World) (h : Host) (l : FileList) :
  list_files w h = Return l ->
  count l = length (files l) /\
  NoDup (files l) /\
  (forall name, In name (files l) ->
     Str.endswith name ".json" = true /\ In name (listdir w)) /\
  (forall d, In d (root_dirs l) -> os_path_isdir h d = true) /\
  directory l = "NEW-SYSTEM" /\
  (framework_dir_exists w = false ->
   files l = [] /\ count l = 0%nat /\ directory_exists l = false).
Proof.
  intros Hlist. unfold list_files, root_directories in Hlist.
  destruct (os_listdir h ".") as [items | e]; [| discriminate].
  injection Hlist as <-. simpl.
  split; [now rewrite DictOrder.dict_keys_length |].
  split; [apply StoreOrder.store_NoDup |].
  split; [| split; [| split; [reflexivity |]]].
  - intros name Hin.
    apply StoreOrder.store_key_listed in Hin as (_ & Hlisted & Hjson).
    auto.
  - intros d Hin. now apply filter_In in Hin as [_ Hdir].
  - intros Hmissing. unfold load_framework_files. rewrite Hmissing.
    auto.
Qed.

Lemma list_files_summary_witness :
  exists l,
    list_files Sample.bare Desk.host = Return l /\
    files l = [] /\ count l = 0%nat /\ directory_exists l = false.
Proof.
  eexists. split; [reflexivity |].
  apply (list_files_summary Sample.bare Desk.host); reflexivity.
Defined.



(** X22.  With an empty store, which is what a missing framework directory
    gives, [GET /framework] answers 404 with the detail naming the
    directory, whether it exists, and the directories of the working
    directory, provided the working directory can be listed; if listing
    it raises, that exception escapes the handler and the status is
    500. *)
Theorem framework_not_found_when_empty (w : World) (h : Host) :
  (framework_dir_exists w = false -> load_framework_files w = []) /\
  (load_framework_files w = [] ->
   (forall items,
      os_listdir h "." = Return items ->
      get_framework_response w h =
      {| status := 404;
         content :=
           DetailBody
             ("No framework files found in NEW-SYSTEM. Directory exists: "
              ++ (if framework_dir_exists w then "True" else "False")
              ++ ". Root directories: "
              ++ repr_list h (filter (os_path_isdir h) items)) |}) /\
   (forall message,
      os_listdir h "." = Raise (Exception message) ->
      get_framework_response w h =
      {| status := 500; content := InternalServerError |})).
Proof.
  split.
  - intros Hmissing. unfold load_framework_files. now rewrite Hmissing.
  - intros Hempty.
    unfold get_framework_response, get_framework, root_directories.
    rewrite Hempty. split.
    + intros items ->. reflexivity.
    + intros message ->. reflexivity.
Qed.

Lemma framework_not_found_when_empty_witness :
  get_framework_response Sample.bare Desk.host =
  {| status := 404;
     content :=
       DetailBody
         "No framework files found in NEW-SYSTEM. Directory exists: False. Root directories: ['static', 'NEW-SYSTEM']" |}.
Proof.
  apply (proj1 (proj2 (framework_not_found_when_empty Sample.bare Desk.host)
                  (proj1 (framework_not_found_when_empty Sample.bare
                            Desk.host) eq_refl))
           [ "static"; "app.py"; "NEW-SYSTEM"; "notes.json"; "README.md" ]).
  reflexivity.
Defined.



(** X24.  The viewer shows what the API serves: when
    [GET /files/{filename}] answers 200 with a document, the viewer's
    text for the same name is the indented JSON text of that document. *)
Theorem viewer_shows_served_document (w : World) (filename : string)
    (doc : JSON) :
  get_files_filename w filename
  = {| status := 200; content := JsonBody doc |} ->
  get_framework_file w filename = json_dumps (encode_basestring w) doc.
Proof.
  intros Hserved. unfold get_files_filename in Hserved.
  apply ServeFacts.respond_json_200, ServeFacts.get_file_returns in Hserved.
  unfold get_framework_file.
  rewrite (ServeFacts.open_json_exists _ _ _ Hserved).
  now rewrite Hserved.
Qed.

Lemma viewer_shows_served_document_witness :
  get_framework_file Sample.enabled "framework-config" = "{}".
Proof.
  apply (viewer_shows_served_document Sample.enabled "framework-config"
           (JDict [])).
  reflexivity.
Defined.

(** X25.  For a name with no file at the direct path, the viewer's text
    and the detail of the 404 of [GET /files/{filename}] are the same
    sentence, ["File <name>.json not found in NEW-SYSTEM"]. *)
Theorem missing_file_same_sentence (w : World) (filename : string) :
  os_path_exists w (os_path_join "NEW-SYSTEM" (with_suffix filename))
  = false ->
  get_framework_file w filename
  = "File " ++ with_suffix filename ++ " not found in NEW-SYSTEM" /\
  get_files_filename w filename
  = {| status := 404;
       content := DetailBody (get_framework_file w filename) |}.
Proof.
  intros Hmissing.
  assert (Hview : get_framework_file w filename
                  = "File " ++ with_suffix filename
                    ++ " not found in NEW-SYSTEM").
  { unfold get_framework_file.
    change FRAMEWORK_DIR with "NEW-SYSTEM". now rewrite Hmissing. }
  split; [exact Hview |].
  rewrite Hview. unfold get_files_filename.
  rewrite FileFacts.get_file_cases. cbv zeta.
  change FRAMEWORK_DIR with "NEW-SYSTEM".
  destruct (dict_get (load_framework_files w) (with_suffix filename))
    as [doc |] eqn:Hstore.
  - apply StoreFacts.store_entry_parses, ServeFacts.open_json_exists
      in Hstore.
    change FRAMEWORK_DIR with "NEW-SYSTEM" in Hstore. congruence.
  - now rewrite Hmissing.
Qed.

Lemma missing_file_same_sentence_witness :
  get_files_filename Sample.enabled "missing"
  = {| status := 404;
       content := DetailBody (get_framework_file Sample.enabled "missing") |}.
Proof.
  apply (missing_file_same_sentence Sample.enabled "missing").
  reflexivity.
Defined.

(** X26.  For a file that exists but does not open or parse, the viewer
    reports the cause, ["Error loading <name>.json: "] followed by the
    text of the exception, where [GET /files/{filename}] only says not
    found. *)
Theorem viewer_reports_the_cause (w : World) (filename : string)
    (e : exn) :
  os_path_exists w (os_path_join "NEW-SYSTEM" (with_suffix filename))
  = true ->
  open_json w (os_path_join "NEW-SYSTEM" (with_suffix filename)) = Raise e ->
  get_framework_file w filename
  = "Error loading " ++ with_suffix filename ++ ": " ++ str_exn e /\
  get_files_filename w filename
  = {| status := 404;
       content :=
         DetailBody ("File " ++ with_suffix filename
                     ++ " not found in NEW-SYSTEM") |}.
Proof.
  intros Hexists Hfail. split.
  - unfold get_framework_file. change FRAMEWORK_DIR with "NEW-SYSTEM".
    now rewrite Hexists, Hfail.
  - unfold get_files_filename.
    rewrite FileFacts.get_file_cases. cbv zeta.
    change FRAMEWORK_DIR with "NEW-SYSTEM".
    destruct (dict_get (load_framework_files w) (with_suffix filename))
      as [doc |] eqn:Hstore.
    + apply StoreFacts.store_entry_parses in Hstore.
      change FRAMEWORK_DIR with "NEW-SYSTEM" in Hstore. congruence.
    + now rewrite Hexists, Hfail.
Qed.

Lemma viewer_reports_the_cause_witness :
  get_framework_file Sample.enabled "nested"
  = "Error loading nested.json: [Errno 21] Is a directory: 'NEW-SYSTEM/nested.json'".
Proof.
  apply (viewer_reports_the_cause Sample.enabled "nested"
           (Exception "[Errno 21] Is a directory: 'NEW-SYSTEM/nested.json'"));
    reflexivity.
Defined.

(** ** The explorer *)

Module ExplorerFacts.

(** The loop sorts the items into two lists of lines, each in the order
    of the items. *)
Lemma classify_loop (h : Host) (path : string) (items : list string) :
  forall dirs files,
  fold_left (classify h path) items (dirs, files) =
  (List.app dirs
     (map (fun item => folder_icon ++ item ++ "/")
        (filter (fun item => os_path_isdir h (os_path_join path item))
           items)),
   List.app files
     (map (fun item =>
             if Str.endswith item ".json" then page_icon ++ item ++ " [JSON]"
             else page_icon ++ item)
        (filter (fun item =>
                   negb (os_path_isdir h (os_path_join path item)))
           items))).
Proof.
  induction items as [| item items IH]; intros dirs files; simpl.
  - now rewrite !app_nil_r.
  - destruct (os_path_isdir h (os_path_join path item)); simpl.
    + rewrite IH, <- app_assoc. reflexivity.
    + destruct (Str.endswith item ".json");
        rewrite IH, <- app_assoc; reflexivity.
Qed.

Lemma split_length {A : Type} (f : A -> bool) (l : list A) :
  (length (filter f l) + length (filter (fun x => negb (f x)) l)
   = length l)%nat.
Proof.
  induction l as [| x l IH]; simpl; [reflexivity |].
  destruct (f x); simpl; lia.
Qed.

End ExplorerFacts.

(** X27.  When the directory can be listed, the explorer's text is the
    lines of the directories followed by the lines of the other items,
    joined by line feeds: one folder line per directory, one page line per
    other item (tagged [[JSON]] when its name ends in [.json]), nothing
    lost and nothing added, each of the two groups in ascending order.
    When listing raises, the text is the error sentence instead. *)
Theorem explorer_lists_every_item (h : Host) (path : string) :
  (forall items,
     os_listdir h path = Return items ->
     exists dirs files,
       list_directory h path = String.concat Str.nl (dirs ++ files)%list /\
       Permutation dirs
         (map (fun item => folder_icon ++ item ++ "/")
            (filter (fun item => os_path_isdir h (os_path_join path item))
               items)) /\
       Permutation files
         (map (fun item =>
                 if Str.endswith item ".json"
                 then page_icon ++ item ++ " [JSON]"
                 else page_icon ++ item)
            (filter (fun item =>
                       negb (os_path_isdir h (os_path_join path item)))
               items)) /\
       Sorted (fun a b => String.leb a b = true) dirs /\
       Sorted (fun a b => String.leb a b = true) files /\
       (length dirs + length files = length items)%nat) /\
  (forall e,
     os_listdir h path = Raise e ->
     list_directory h path
     = "Error listing directory " ++ path ++ ": " ++ str_exn e).
Proof.
  split.
  - intros items Hitems. unfold list_directory. rewrite Hitems.
    rewrite ExplorerFacts.classify_loop. simpl.
    eexists _, _. split; [reflexivity |].
    split; [| split; [| split; [| split]]].
    + symmetry. apply StringSort.Permuted_sort.
    + symmetry. apply StringSort.Permuted_sort.
    + apply StringSort.Sorted_sort.
    + apply StringSort.Sorted_sort.
    + unfold sorted.
      rewrite <- !(Permutation_length (StringSort.Permuted_sort _)).
      rewrite !length_map. apply ExplorerFacts.split_length.
  - intros e He. unfold list_directory. now rewrite He.
Qed.

Lemma explorer_lists_every_item_witness :
  list_directory Desk.host "nowhere"
  = "Error listing directory nowhere: [Errno 2] No such file or directory: 'nowhere'"
  /\ exists dirs files,
       list_directory Desk.host "NEW-SYSTEM"
       = String.concat Str.nl (dirs ++ files)%list /\
       (length dirs + length files = 5)%nat.
Proof.
  split.
  - apply (proj2 (explorer_lists_every_item Desk.host "nowhere")
             (Exception "[Errno 2] No such file or directory: 'nowhere'")).
    reflexivity.
  - destruct (proj1 (explorer_lists_every_item Desk.host "NEW-SYSTEM")
                Sample.listing eq_refl)
      as (dirs & files & Htext & _ & _ & _ & _ & Hlen).
    exists dirs, files. split; [exact Htext | exact Hlen].
Defined.
